(** * World Development Indicators app: the reactive chart-state engine

    A shallow embedding of [tutorial_solution.py]: the bubble-chart builder
    [plotBubbleChart], the animation range [minmaxYear], the Start and Stop
    blocks of the script and the selection block that feeds the connected
    scatterplot.

    Conventions.
    - A data frame is the list of its rows, in index order.  A numeric cell
      is an [option Z]: [None] is pandas' NaN.  The code only tests cells
      for null-ness, compares them for equality ([isin]) and takes their
      minimum and maximum, so the integers stand in for the floats of the
      CSV file.
    - Python dicts used as maps ([st.session_state], the selection payload
      and its point constraints) are [gmap]s; [keys], whose six entries are
      fixed by the script, is a record.
    - What the script shows on the page is appended to a trace of outputs.
    - A Python exception is the [Raise] branch of [result]. *)

From Stdlib Require Import ZArith.
From stdpp Require Import base option list strings gmap.

Local Open Scope Z_scope.

(** ** Errors *)

Inductive exn := KeyError (k : string) | TypeError.

Inductive result (A : Type) :=
  | Ok (a : A)
  | Raise (e : exn).
Arguments Ok {A} a.
Arguments Raise {A} e.

#[global] Instance result_ret : MRet result := λ A a, Ok a.
#[global] Instance result_bind : MBind result := λ A B f m,
  match m with
  | Ok a => f a
  | Raise e => Raise e
  end.

(** ** Data frames *)

(** One row of [WDIData.csv]: the two identifying columns, the region used
    for colour, and the numeric columns read by name. *)
Record row := Row {
  Country : string;
  Region : string;
  Year : Z;
  col : string → option Z
}.

(** [Series.min()] and [Series.max()] skip NaN and give NaN on a series
    without any value. *)
Definition nanmin (a b : option Z) : option Z :=
  match a, b with
  | Some u, Some v => Some (Z.min u v)
  | Some u, None => Some u
  | None, _ => b
  end.

Definition nanmax (a b : option Z) : option Z :=
  match a, b with
  | Some u, Some v => Some (Z.max u v)
  | Some u, None => Some u
  | None, _ => b
  end.

Definition series_min (s : list (option Z)) : option Z := foldr nanmin None s.
Definition series_max (s : list (option Z)) : option Z := foldr nanmax None s.

(** [df[c]] for a numeric column [c]. *)
Definition column (df : list row) (c : string) : list (option Z) :=
  (λ r, col r c) <$> df.

(** ** Filter state: the [keys] dict *)

Record keys_t := Keys {
  key_x : string;
  key_y : string;
  key_x_log : bool;
  key_y_log : bool;
  key_year : Z;
  key_countries : list string
}.

(** [keys['year'] = y] *)
Definition set_year (y : Z) (k : keys_t) : keys_t :=
  {| key_x := key_x k; key_y := key_y k;
     key_x_log := key_x_log k; key_y_log := key_y_log k;
     key_year := y; key_countries := key_countries k |}.

(** ** Chart specifications *)

Inductive scale_type := Linear | Log.

Record scale := Scale {
  scale_domain : option (option Z * option Z);
  scale_type_of : scale_type;
  scale_range : option (Z * Z);
  scale_zero : bool
}.

Record channel := Channel {
  field : string;
  channel_scale : scale
}.

Inductive mark := mark_circle | mark_line.

Record chart := Chart {
  chart_data : list row;
  chart_mark : mark;
  enc_x : channel;
  enc_y : channel;
  enc_size : option channel;
  enc_color : string;
  enc_order : option string;
  enc_tooltip : list string;
  selection_encodings : list string;
  chart_width : Z;
  chart_height : Z;
  chart_interactive : bool
}.

Definition population : string := "Population, total".

(** [alt.Scale(domain=[df[c].min(), df[c].max()], ...)] *)
Definition min_max (df : list row) (c : string) : option Z * option Z :=
  (series_min (column df c), series_max (column df c)).

Definition log_if (b : bool) : scale_type := if b then Log else Linear.

(** [plotBubbleChart(df, keys, global_max=False)] *)
Definition plotBubbleChart (df : list row) (keys : keys_t) (global_max : bool) : chart :=
  let df :=
    if bool_decide (0 < length (key_countries keys))%nat
    then filter (λ r, Country r ∈ key_countries keys) df
    else df in
  let x_scale :=
    if global_max
    then Scale (Some (min_max df (key_x keys))) (log_if (key_x_log keys)) None false
    else Scale None (log_if (key_x_log keys)) None false in
  let y_scale :=
    if global_max
    then Scale (Some (min_max df (key_y keys))) (log_if (key_y_log keys)) None false
    else Scale None (log_if (key_y_log keys)) None false in
  let size_scale :=
    if global_max
    then Scale (Some (min_max df population)) Linear (Some (30, 3000)) false
    else Scale None Linear (Some (30, 3000)) false in
  let source := filter (λ r, Year r = key_year keys) df in
  let source :=
    filter (λ r, is_Some (col r (key_x keys)) ∧ is_Some (col r (key_y keys))) source in
  {| chart_data := source;
     chart_mark := mark_circle;
     enc_x := Channel (key_x keys) x_scale;
     enc_y := Channel (key_y keys) y_scale;
     enc_size := Some (Channel population size_scale);
     enc_color := "Region";
     enc_order := None;
     enc_tooltip := ["Country"];
     selection_encodings := ["x"; "y"; "size"];
     chart_width := 800;
     chart_height := 500;
     chart_interactive := true |}.

(** The rows a bubble chart may show for a filter state: the year of the
    filter, a value for both indicators, and a selected country when
    countries are selected. *)
Definition in_view (keys : keys_t) (r : row) : Prop :=
  Year r = key_year keys ∧
  col r (key_x keys) ≠ None ∧
  col r (key_y keys) ≠ None ∧
  (key_countries keys = [] ∨ Country r ∈ key_countries keys).

#[global] Instance in_view_dec keys r : Decision (in_view keys r).
Proof. unfold in_view. apply _. Defined.

(** ** Animation range *)

(** Python's [a > b] on numbers that may be NaN: false as soon as one is. *)
Definition py_gt (a b : option Z) : bool :=
  match a, b with
  | Some u, Some v => bool_decide (v < u)
  | _, _ => false
  end.

(** The builtins [max(a, b)] and [min(a, b)]: the first argument is kept
    unless the second one is strictly better. *)
Definition py_max (a b : option Z) : option Z := if py_gt b a then b else a.
Definition py_min (a b : option Z) : option Z := if py_gt a b then b else a.

(** [df[['Year', c]].dropna()]: [Year] is never null. *)
Definition dropna (df : list row) (c : string) : list row :=
  filter (λ r, is_Some (col r c)) df.

(** [temp['Year']] *)
Definition years (df : list row) : list (option Z) :=
  (λ r, Some (Year r)) <$> df.

(** [minmaxYear(df, x, y)] *)
Definition minmaxYear (df : list row) (x y : string) : option Z * option Z :=
  let temp_x := dropna df x in
  let temp_y := dropna df y in
  let first := py_max (series_min (years temp_x)) (series_min (years temp_y)) in
  let last := py_min (series_max (years temp_x)) (series_max (years temp_y)) in
  (first, last).

(** ** The page and the session *)

Inductive output :=
  | text_markdown (y : Z)               (* text.markdown("Year: {}".format(y)) *)
  | new_chart_altair_chart (c : chart)  (* new_chart.altair_chart(c) *)
  | st_success (msg : string)
  | st_dataframe (c : list string)
  | st_altair_chart (c : chart).

Record state := State {
  session_state : gmap string Z;
  st_keys : keys_t;
  page : list output
}.

(** [range(a, b)]; a NaN bound is a float, which [range] refuses. *)
Definition py_range (a b : option Z) : result (list Z) :=
  match a, b with
  | Some u, Some v => Ok (seqZ u (v - u))
  | _, _ => Raise TypeError
  end.

(** The body of the animation loop for the year [y]. *)
Definition animation_step (df : list row) (st : state) (y : Z) : state :=
  let keys := set_year y (st_keys st) in
  {| session_state := <["year" := y]> (session_state st);
     st_keys := keys;
     page := page st ++
       [text_markdown y; new_chart_altair_chart (plotBubbleChart df keys true)] |}.

(** The loop over a list of years. *)
Definition animate (df : list row) (st : state) (ys : list Z) : state :=
  foldl (animation_step df) st ys.

(** [first, last = minmaxYear(...)] and the [if start:] block. *)
Definition start_block (df : list row) (start : bool) (st : state) : result state :=
  let '(first, last) := minmaxYear df (key_x (st_keys st)) (key_y (st_keys st)) in
  if start then
    ys ← py_range first ((λ l, l + 1) <$> last);
    mret (animate df st ys)
  else mret st.

(** The [if stop and 'year' in st.session_state:] block. *)
Definition stop_block (df : list row) (stop : bool) (st : state) : state :=
  match stop, session_state st !! "year" with
  | true, Some y =>
      let keys := set_year y (st_keys st) in
      {| session_state := session_state st;
         st_keys := keys;
         page := page st ++ [new_chart_altair_chart (plotBubbleChart df keys true)] |}
  | _, _ => st
  end.

(** ** Selection *)

(** [plotConnectedScatterplot(df, keys, countries)] *)
Definition plotConnectedScatterplot (df : list row) (keys : keys_t)
    (countries : list string) : chart :=
  let source := filter (λ r, Country r ∈ countries) df in
  let x_scale := Scale None (log_if (key_x_log keys)) None false in
  let y_scale := Scale None (log_if (key_y_log keys)) None false in
  {| chart_data := source;
     chart_mark := mark_line;
     enc_x := Channel (key_x keys) x_scale;
     enc_y := Channel (key_y keys) y_scale;
     enc_size := None;
     enc_color := "Country";
     enc_order := Some "Year";
     enc_tooltip := ["Country"; "Year"];
     selection_encodings := [];
     chart_width := 800;
     chart_height := 500;
     chart_interactive := false |}.

(** [pd.DataFrame(dicts)[c]]: a dict without the key [c] gives NaN, and the
    column exists only if some dict has the key. *)
Definition frame_column (dicts : list (gmap string Z)) (c : string)
    : result (list (option Z)) :=
  if bool_decide (Exists (λ d, is_Some (d !! c)) dicts)
  then Ok ((λ d, d !! c) <$> dicts)
  else Raise (KeyError c).

(** [d[k]] on a dict *)
Definition getitem {V} (d : gmap string V) (k : string) : result V :=
  match d !! k with
  | Some v => Ok v
  | None => Raise (KeyError k)
  end.

(** [df.loc[(df['Year'] == keys['year']) & (df[keys['x']].isin(sx)), 'Country']];
    [isin] finds a NaN cell in a list that holds a NaN. *)
Definition match_selection (df : list row) (keys : keys_t)
    (sx : list (option Z)) : list string :=
  Country <$>
    filter (λ r, Year r = key_year keys ∧ col r (key_x keys) ∈ sx) df.

(** The [if selection.get("vlMulti"):] block.  The payload is the dict
    returned by the chart component: under ["vlMulti"], a dict whose ["or"]
    entry lists the point constraints, each a dict from field to value. *)
Definition selection_block (df : list row)
    (selection : gmap string (gmap string (list (gmap string Z))))
    (st : state) : result state :=
  match selection !! "vlMulti" with
  | Some vl =>
      if bool_decide (vl = ∅) then mret st
      else
        constraints ← getitem vl "or";
        sx ← frame_column constraints (key_x (st_keys st));
        let c := match_selection df (st_keys st) sx in
        mret {| session_state := session_state st;
                st_keys := st_keys st;
                page := page st ++
                  [st_success "Match found!"; st_dataframe c;
                   st_altair_chart (plotConnectedScatterplot df (st_keys st) c)] |}
  | None => mret st
  end.

(** The first and the last year for which the column [c] has a value. *)
Definition first_valid_year (df : list row) (c : string) (m : Z) : Prop :=
  (∃ r, r ∈ df ∧ col r c ≠ None ∧ Year r = m) ∧
  (∀ r, r ∈ df → col r c ≠ None → m ≤ Year r).

Definition last_valid_year (df : list row) (c : string) (m : Z) : Prop :=
  (∃ r, r ∈ df ∧ col r c ≠ None ∧ Year r = m) ∧
  (∀ r, r ∈ df → col r c ≠ None → Year r ≤ m).

(** What one pass through the loop body puts on the page. *)
Definition frame (df : list row) (keys : keys_t) (y : Z) : list output :=
  [text_markdown y;
   new_chart_altair_chart (plotBubbleChart df (set_year y keys) true)].

(** The charts sent to the [new_chart] placeholder, in order. *)
Definition chart_updates (p : list output) : list chart :=
  omap (λ o, match o with new_chart_altair_chart c => Some c | _ => None end) p.

(** The years written by [text.markdown], in order. *)
Definition year_labels (p : list output) : list Z :=
  omap (λ o, match o with text_markdown y => Some y | _ => None end) p.

(** An empty range is reported when the block raises or shows something. *)
Definition reports_empty_range (st : state) (r : result state) : Prop :=
  match r with
  | Raise _ => True
  | Ok st' => page st' ≠ page st
  end.

(** ** Axis domains *)

Definition x_domain (c : chart) : option (option Z * option Z) :=
  scale_domain (channel_scale (enc_x c)).
Definition y_domain (c : chart) : option (option Z * option Z) :=
  scale_domain (channel_scale (enc_y c)).
Definition size_domain (c : chart) : option (option Z * option Z) :=
  ch ← enc_size c; scale_domain (channel_scale ch).

(** The rows of the selected countries, all rows when none is selected. *)
Definition selected_rows (df : list row) (keys : keys_t) : list row :=
  filter (λ r, key_countries keys = [] ∨ Country r ∈ key_countries keys) df.

(** The three domains of the global policy read off the full data frame. *)
Definition domains_of_full_frame (df : list row) (keys : keys_t) : Prop :=
  x_domain (plotBubbleChart df keys true) = Some (min_max df (key_x keys)) ∧
  y_domain (plotBubbleChart df keys true) = Some (min_max df (key_y keys)) ∧
  size_domain (plotBubbleChart df keys true) = Some (min_max df population).

(** ** Selected countries *)

(** The brushed x values: the country [n] has a row among [rows] whose x
    value is the x value of one of the point constraints [cs]. *)
Definition matches_in (rows : list row) (keys : keys_t)
    (cs : list (gmap string Z)) (n : string) : Prop :=
  ∃ r, r ∈ rows ∧ Country r = n ∧
    ∃ v, col r (key_x keys) = Some v ∧
      ∃ d, d ∈ cs ∧ d !! key_x keys = Some v.

(** ... among the rows shown by the bubble chart, *)
Definition view_matches (df : list row) (keys : keys_t)
    (cs : list (gmap string Z)) (n : string) : Prop :=
  matches_in (chart_data (plotBubbleChart df keys false)) keys cs n.

(** ... and among all the rows of the year of the filter. *)
Definition frame_matches (df : list row) (keys : keys_t)
    (cs : list (gmap string Z)) (n : string) : Prop :=
  matches_in (filter (λ r, Year r = key_year keys) df) keys cs n.

(** What the selection block shows for the countries [c]. *)
Definition selection_outputs (df : list row) (keys : keys_t)
    (c : list string) : list output :=
  [st_success "Match found!"; st_dataframe c;
   st_altair_chart (plotConnectedScatterplot df keys c)].

(** ** Sample data *)

Definition mkrow (c : string) (y : Z) (cells : list (string * Z)) : row :=
  Row c "World" y (λ n, (list_to_map cells : gmap string Z) !! n).

Definition keys_2015 (countries : list string) : keys_t :=
  Keys "GDP" "Life" true false 2015 countries.

Definition state_2015 (countries : list string) : state :=
  State ∅ (keys_2015 countries) [].

(** Three countries in 2015, as in the selection example. *)
Definition df_abc : list row :=
  [ mkrow "A" 2015 [("GDP", 10); ("Life", 70)];
    mkrow "B" 2015 [("GDP", 20); ("Life", 60)];
    mkrow "C" 2015 [("GDP", 10); ("Life", 65)] ].

(** The same with a fourth country that has no life expectancy in 2015. *)
Definition df_abcd : list row :=
  df_abc ++ [ mkrow "D" 2015 [("GDP", 10)] ].

(** A brush on the points whose x value is 10. *)
Definition brush_10 : gmap string (gmap string (list (gmap string Z))) :=
  {[ "vlMulti" := {[ "or" := [ {[ "GDP" := 10 ]} ] ]} ]}.

(** A brush on a value no row has. *)
Definition brush_99 : gmap string (gmap string (list (gmap string Z))) :=
  {[ "vlMulti" := {[ "or" := [ {[ "GDP" := 99 ]} ] ]} ]}.

(** GDP known over 1965-2018, life expectancy over 1960-2015. *)
Definition df_ranges : list row :=
  [ mkrow "A" 1960 [("Life", 50)];
    mkrow "A" 1965 [("GDP", 5); ("Life", 52)];
    mkrow "A" 2015 [("GDP", 30); ("Life", 71)];
    mkrow "A" 2018 [("GDP", 33)] ].

(** GDP known in 2000 only, life expectancy in 1990 only. *)
Definition df_gap : list row :=
  [ mkrow "A" 1990 [("Life", 60)];
    mkrow "A" 2000 [("GDP", 12)] ].

(** Two countries over two years, with different values each year. *)
Definition df_two_years : list row :=
  [ mkrow "A" 2000 [("GDP", 1); ("Life", 50); ("Population, total", 100)];
    mkrow "B" 2000 [("GDP", 40); ("Life", 55); ("Population, total", 900)];
    mkrow "A" 2010 [("GDP", 3); ("Life", 60); ("Population, total", 120)];
    mkrow "B" 2010 [("GDP", 70); ("Life", 66); ("Population, total", 950)] ].

(** A brush on the points whose x value is 70. *)
Definition brush_70 : gmap string (gmap string (list (gmap string Z))) :=
  {[ "vlMulti" := {[ "or" := [ {[ "GDP" := 70 ]} ] ]} ]}.

(** A run with the filter on 2000 while the session holds the year 2010. *)
Definition state_stopped : state :=
  State {[ "year" := 2010 ]} (Keys "GDP" "Life" true false 2000 []) [].

(** ** The first chart *)

Definition gdp_per_capita : string := "GDP per capita (current LCU)".
Definition life_expectancy : string := "Life expectancy at birth, total (years)".

(** [year = 2012] and [source = df[df['Year'] == 2012]] *)
Definition source_2012 (df : list row) : list row :=
  filter (λ r, Year r = 2012) df.

(** [plotTheFirstChart(source)] *)
Definition plotTheFirstChart (source : list row) : chart :=
  {| chart_data := source;
     chart_mark := mark_circle;
     enc_x := Channel gdp_per_capita (Scale None Log None false);
     enc_y := Channel life_expectancy (Scale None Linear None false);
     enc_size := Some (Channel population (Scale None Linear (Some (30, 3000)) false));
     enc_color := "Region";
     enc_order := None;
     enc_tooltip := ["Country"];
     selection_encodings := ["x"; "y"; "size"];
     chart_width := 800;
     chart_height := 500;
     chart_interactive := true |}.

(** The filter state under which the bubble chart shows the same
    indicators, scales and year as the first chart. *)
Definition first_chart_keys : keys_t :=
  Keys gdp_per_capita life_expectancy true false 2012 [].

(** * Properties *)

(** ** Filter correctness *)

(** The data of the chart are the rows of the frame that are in the view,
    in the order of the frame. *)
Lemma plotBubbleChart_data_view (df : list row) (keys : keys_t) (g : bool) :
  chart_data (plotBubbleChart df keys g) = filter (in_view keys) df.
Proof.
  unfold plotBubbleChart; cbn [chart_data].
  case_bool_decide as Hlen; rewrite !list_filter_filter;
    apply list_filter_iff; intros r; unfold in_view;
    rewrite <- !not_eq_None_Some.
  - split; [intros (((? & ?) & ?) & ?); eauto 10|].
    intros (? & ? & ? & [E|?]); [|done].
    rewrite E in Hlen. cbn in Hlen. lia.
  - split; [intros ((? & ?) & ?)|intros (? & ? & ? & ?); done].
    repeat split; try done. left.
    destruct (key_countries keys); [done|]. cbn in Hlen. lia.
Qed.

(** C1: the data of the bubble chart are the rows of the data frame, each
    untouched and in the order of the frame, that have the year of the
    filter, a value for the x indicator, a value for the y indicator and,
    when countries are selected, a country among them; every row of the
    chart satisfies these four conditions. *)
Theorem plotBubbleChart_source_filtered (df : list row) (keys : keys_t) (g : bool) :
  chart_data (plotBubbleChart df keys g) = filter (in_view keys) df ∧
  sublist (chart_data (plotBubbleChart df keys g)) df ∧
  ∀ r, r ∈ chart_data (plotBubbleChart df keys g) →
    r ∈ df ∧
    Year r = key_year keys ∧
    col r (key_x keys) ≠ None ∧
    col r (key_y keys) ≠ None ∧
    (key_countries keys = [] ∨ Country r ∈ key_countries keys).
Proof.
  rewrite plotBubbleChart_data_view.
  split; [done|]. split; [apply sublist_filter|].
  intros r [Hr ?]%list_elem_of_filter. split; [done|]. exact Hr.
Qed.

(** ** Animation range *)

Lemma series_min_years (l : list row) :
  match series_min (years l) with
  | Some m => (∃ r, r ∈ l ∧ Year r = m) ∧ ∀ r, r ∈ l → m ≤ Year r
  | None => l = []
  end.
Proof.
  induction l as [|r l IH]; [done|].
  cbn. fold (years l). fold (series_min (years l)).
  destruct (series_min (years l)) as [m|]; cbn.
  - destruct IH as [(r' & Hr' & Hm) Hle]. split.
    + destruct (Z.min_spec (Year r) m) as [[_ ->]|[_ ->]].
      * exists r. split; [left|done].
      * exists r'. split; [by right|done].
    + intros r0 [->|Hr0]%elem_of_cons; [lia|]. specialize (Hle _ Hr0). lia.
  - subst l. split.
    + exists r. split; [left|done].
    + intros r0 [->|Hr0]%elem_of_cons; [lia|]. by apply elem_of_nil in Hr0.
Qed.

Lemma series_max_years (l : list row) :
  match series_max (years l) with
  | Some m => (∃ r, r ∈ l ∧ Year r = m) ∧ ∀ r, r ∈ l → Year r ≤ m
  | None => l = []
  end.
Proof.
  induction l as [|r l IH]; [done|].
  cbn. fold (years l). fold (series_max (years l)).
  destruct (series_max (years l)) as [m|]; cbn.
  - destruct IH as [(r' & Hr' & Hm) Hle]. split.
    + destruct (Z.max_spec (Year r) m) as [[_ ->]|[_ ->]].
      * exists r'. split; [by right|done].
      * exists r. split; [left|done].
    + intros r0 [->|Hr0]%elem_of_cons; [lia|]. specialize (Hle _ Hr0). lia.
  - subst l. split.
    + exists r. split; [left|done].
    + intros r0 [->|Hr0]%elem_of_cons; [lia|]. by apply elem_of_nil in Hr0.
Qed.

Lemma elem_of_dropna (df : list row) (c : string) (r : row) :
  r ∈ dropna df c ↔ r ∈ df ∧ col r c ≠ None.
Proof.
  unfold dropna. rewrite list_elem_of_filter, <- not_eq_None_Some. tauto.
Qed.

Lemma series_min_first_valid (df : list row) (c : string) (m : Z) :
  first_valid_year df c m → series_min (years (dropna df c)) = Some m.
Proof.
  intros [(r & Hr & Hc & Hm) Hle].
  pose proof (series_min_years (dropna df c)) as H.
  destruct (series_min (years (dropna df c))) as [m'|].
  - destruct H as [(r' & Hr' & Hm') Hle'].
    apply elem_of_dropna in Hr' as [Hr' Hc'].
    specialize (Hle _ Hr' Hc').
    specialize (Hle' r). rewrite elem_of_dropna in Hle'.
    f_equal. specialize (Hle' (conj Hr Hc)). lia.
  - assert (r ∈ dropna df c) as Hin by by apply elem_of_dropna.
    rewrite H in Hin. by apply elem_of_nil in Hin.
Qed.

Lemma series_max_last_valid (df : list row) (c : string) (m : Z) :
  last_valid_year df c m → series_max (years (dropna df c)) = Some m.
Proof.
  intros [(r & Hr & Hc & Hm) Hle].
  pose proof (series_max_years (dropna df c)) as H.
  destruct (series_max (years (dropna df c))) as [m'|].
  - destruct H as [(r' & Hr' & Hm') Hle'].
    apply elem_of_dropna in Hr' as [Hr' Hc'].
    specialize (Hle _ Hr' Hc').
    specialize (Hle' r). rewrite elem_of_dropna in Hle'.
    f_equal. specialize (Hle' (conj Hr Hc)). lia.
  - assert (r ∈ dropna df c) as Hin by by apply elem_of_dropna.
    rewrite H in Hin. by apply elem_of_nil in Hin.
Qed.

Lemma py_max_Some (a b : Z) : py_max (Some a) (Some b) = Some (Z.max a b).
Proof. unfold py_max, py_gt. case_bool_decide; f_equal; lia. Qed.

Lemma py_min_Some (a b : Z) : py_min (Some a) (Some b) = Some (Z.min a b).
Proof. unfold py_min, py_gt. case_bool_decide; f_equal; lia. Qed.

(** C3: when each of the two indicators has a value somewhere,
    [minmaxYear] returns the larger of the two first valid years and the
    smaller of the two last valid years; an indicator valid over 1965-2018
    and one valid over 1960-2015 give the range 1965-2015. *)
Theorem minmaxYear_intersection (df : list row) (x y : string) (fx lx fy ly : Z) :
  first_valid_year df x fx → last_valid_year df x lx →
  first_valid_year df y fy → last_valid_year df y ly →
  minmaxYear df x y = (Some (Z.max fx fy), Some (Z.min lx ly)) ∧
  (fx = 1965 → lx = 2018 → fy = 1960 → ly = 2015 →
   minmaxYear df x y = (Some 1965, Some 2015)).
Proof.
  intros Hfx Hlx Hfy Hly.
  assert (minmaxYear df x y = (Some (Z.max fx fy), Some (Z.min lx ly))) as E.
  { unfold minmaxYear.
    rewrite (series_min_first_valid _ _ _ Hfx), (series_min_first_valid _ _ _ Hfy).
    rewrite (series_max_last_valid _ _ _ Hlx), (series_max_last_valid _ _ _ Hly).
    by rewrite py_max_Some, py_min_Some. }
  split; [done|]. intros -> -> -> ->. exact E.
Qed.

Lemma first_valid_year_alt (df : list row) (c : string) (m : Z) :
  Exists (λ r, col r c ≠ None ∧ Year r = m) df ∧
  Forall (λ r, col r c ≠ None → m ≤ Year r) df →
  first_valid_year df c m.
Proof.
  intros [(r & Hr & H)%Exists_exists Hall]. split; [by exists r|].
  intros r' Hr'. by apply (proj1 (Forall_forall _ _) Hall).
Qed.

Lemma last_valid_year_alt (df : list row) (c : string) (m : Z) :
  Exists (λ r, col r c ≠ None ∧ Year r = m) df ∧
  Forall (λ r, col r c ≠ None → Year r ≤ m) df →
  last_valid_year df c m.
Proof.
  intros [(r & Hr & H)%Exists_exists Hall]. split; [by exists r|].
  intros r' Hr'. by apply (proj1 (Forall_forall _ _) Hall).
Qed.

Lemma minmaxYear_intersection_witness :
  minmaxYear df_ranges "GDP" "Life" = (Some (Z.max 1965 1960), Some (Z.min 2018 2015)) ∧
  (1965 = 1965 → 2018 = 2018 → 1960 = 1960 → 2015 = 2015 →
   minmaxYear df_ranges "GDP" "Life" = (Some 1965, Some 2015)).
Proof.
  apply (minmaxYear_intersection df_ranges "GDP" "Life" 1965 2018 1960 2015).
  - apply first_valid_year_alt, (bool_decide_unpack _). vm_compute. exact I.
  - apply last_valid_year_alt, (bool_decide_unpack _). vm_compute. exact I.
  - apply first_valid_year_alt, (bool_decide_unpack _). vm_compute. exact I.
  - apply last_valid_year_alt, (bool_decide_unpack _). vm_compute. exact I.
Defined.

(** ** The animation loop *)

Lemma set_year_set_year (y y' : Z) (k : keys_t) :
  set_year y (set_year y' k) = set_year y k.
Proof. done. Qed.

Lemma frame_set_year (df : list row) (k : keys_t) (y' y : Z) :
  frame df (set_year y' k) y = frame df k y.
Proof. done. Qed.

Lemma animate_snoc (df : list row) (st : state) (ys : list Z) (y : Z) :
  animate df st (ys ++ [y]) = animation_step df (animate df st ys) y.
Proof. unfold animate. by rewrite foldl_app. Qed.

(** The keys after the loop differ from the keys before it in the year
    only, which is the last year of the loop if there is one. *)
Lemma animate_keys (df : list row) (st : state) (ys : list Z) :
  st_keys (animate df st ys) =
  set_year (default (key_year (st_keys st)) (last ys)) (st_keys st).
Proof.
  induction ys as [|y ys IH] using rev_ind.
  - cbn. by destruct (st_keys st).
  - rewrite animate_snoc, last_snoc. cbn. by rewrite IH.
Qed.

(** The loop persists each year it shows. *)
Lemma animate_session (df : list row) (st : state) (ys : list Z) (y : Z) :
  session_state (animate df st (ys ++ [y])) !! "year" = Some y.
Proof. rewrite animate_snoc. cbn. apply lookup_insert_eq. Qed.

Lemma animate_page (df : list row) (st : state) (ys : list Z) :
  page (animate df st ys) = page st ++ mjoin (frame df (st_keys st) <$> ys).
Proof.
  induction ys as [|y ys IH] using rev_ind.
  - cbn. by rewrite app_nil_r.
  - rewrite animate_snoc. cbn [animation_step page].
    rewrite IH, animate_keys, fmap_app, join_app, <- app_assoc. cbn.
    by rewrite set_year_set_year.
Qed.

Lemma chart_updates_frames (df : list row) (k : keys_t) (ys : list Z) :
  chart_updates (mjoin (frame df k <$> ys)) =
  (λ y, plotBubbleChart df (set_year y k) true) <$> ys.
Proof. induction ys as [|y ys IH]; [done|]. cbn. by f_equal. Qed.

Lemma year_labels_frames (df : list row) (k : keys_t) (ys : list Z) :
  year_labels (mjoin (frame df k <$> ys)) = ys.
Proof. induction ys as [|y ys IH]; [done|]. cbn. by f_equal. Qed.

Lemma start_block_range (df : list row) (st : state) (first last : Z) :
  minmaxYear df (key_x (st_keys st)) (key_y (st_keys st)) = (Some first, Some last) →
  start_block df true st = Ok (animate df st (seqZ first (last + 1 - first))).
Proof. intros E. unfold start_block. by rewrite E. Qed.

(** The state after the pass for the [k]-th year of the loop. *)
Lemma animate_take (df : list row) (st : state) (ys : list Z) (k : nat) (y : Z) :
  ys !! k = Some y →
  key_year (st_keys (animate df st (take (S k) ys))) = y ∧
  session_state (animate df st (take (S k) ys)) !! "year" = Some y.
Proof.
  intros Hk. rewrite (take_S_r _ _ _ Hk). split.
  - by rewrite animate_keys, last_snoc.
  - apply animate_session.
Qed.

(** C4: on a range with [first <= last] the Start block runs the loop body
    once for each year from [first] to [last], in order: that is
    [last - first + 1] passes, each writing the year label and sending one
    chart; the block then returns.  The year set by the [k]-th pass is
    [first + k], never more than [last], and the last pass leaves [last]. *)
Theorem start_block_steps (df : list row) (st : state) (first last : Z) :
  minmaxYear df (key_x (st_keys st)) (key_y (st_keys st)) = (Some first, Some last) →
  first ≤ last →
  ∃ ys st',
    start_block df true st = Ok st' ∧
    st' = animate df st ys ∧
    Z.of_nat (length ys) = last - first + 1 ∧
    page st' = page st ++ mjoin (frame df (st_keys st) <$> ys) ∧
    chart_updates (page st') =
      chart_updates (page st) ++
      ((λ y, plotBubbleChart df (set_year y (st_keys st)) true) <$> ys) ∧
    year_labels (page st') = year_labels (page st) ++ ys ∧
    (∀ (k : nat) (y : Z), ys !! k = Some y →
       y = first + Z.of_nat k ∧ y ≤ last ∧
       key_year (st_keys (animate df st (take (S k) ys))) = y ∧
       session_state (animate df st (take (S k) ys)) !! "year" = Some y) ∧
    key_year (st_keys st') = last ∧
    session_state st' !! "year" = Some last.
Proof.
  intros E Hle.
  exists (seqZ first (last + 1 - first)), (animate df st (seqZ first (last + 1 - first))).
  set (ys := seqZ first (last + 1 - first)).
  assert (length ys = Z.to_nat (last + 1 - first)) as Hlen by apply length_seqZ.
  assert (∀ (k : nat) (y : Z), ys !! k = Some y →
            y = first + Z.of_nat k ∧ y ≤ last ∧
            key_year (st_keys (animate df st (take (S k) ys))) = y ∧
            session_state (animate df st (take (S k) ys)) !! "year" = Some y) as Hstep.
  { intros k y Hk. pose proof Hk as [-> Hlt]%lookup_seqZ.
    split; [done|]. split; [lia|]. by apply animate_take. }
  split; [by apply start_block_range|]. split; [done|]. split; [lia|].
  split; [apply animate_page|].
  split; [by rewrite animate_page; unfold chart_updates; rewrite omap_app;
          fold (chart_updates (mjoin (frame df (st_keys st) <$> ys)));
          rewrite chart_updates_frames|].
  split; [by rewrite animate_page; unfold year_labels; rewrite omap_app;
          fold (year_labels (mjoin (frame df (st_keys st) <$> ys)));
          rewrite year_labels_frames|].
  split; [exact Hstep|].
  assert (ys !! Z.to_nat (last - first) = Some last) as Hlast.
  { apply lookup_seqZ. lia. }
  destruct (Hstep _ _ Hlast) as (_ & _ & Hk & Hs).
  rewrite take_ge in Hk, Hs by lia. done.
Qed.

Lemma start_block_steps_witness :
  ∃ ys st',
    start_block df_ranges true (state_2015 []) = Ok st' ∧
    st' = animate df_ranges (state_2015 []) ys ∧
    Z.of_nat (length ys) = 2015 - 1965 + 1 ∧
    page st' = page (state_2015 []) ++
      mjoin (frame df_ranges (st_keys (state_2015 [])) <$> ys) ∧
    chart_updates (page st') =
      chart_updates (page (state_2015 [])) ++
      ((λ y, plotBubbleChart df_ranges (set_year y (st_keys (state_2015 []))) true) <$> ys) ∧
    year_labels (page st') = year_labels (page (state_2015 [])) ++ ys ∧
    (∀ (k : nat) (y : Z), ys !! k = Some y →
       y = 1965 + Z.of_nat k ∧ y ≤ 2015 ∧
       key_year (st_keys (animate df_ranges (state_2015 []) (take (S k) ys))) = y ∧
       session_state (animate df_ranges (state_2015 []) (take (S k) ys)) !! "year" = Some y) ∧
    key_year (st_keys st') = 2015 ∧
    session_state st' !! "year" = Some 2015.
Proof.
  apply (start_block_steps df_ranges (state_2015 []) 1965 2015).
  - vm_compute. reflexivity.
  - lia.
Defined.

(** C6 (as the code has it): on an empty range, [first > last], the Start
    block runs no pass of the loop and returns the state as it was; nothing
    is raised and nothing is shown. *)
Theorem start_block_empty_range (df : list row) (st : state) (first last : Z) :
  minmaxYear df (key_x (st_keys st)) (key_y (st_keys st)) = (Some first, Some last) →
  last < first →
  start_block df true st = Ok st ∧
  start_block df true st = Ok (animate df st []).
Proof.
  intros E Hlt. rewrite (start_block_range _ _ _ _ E).
  by rewrite seqZ_nil by lia.
Qed.

Lemma start_block_empty_range_witness :
  start_block df_gap true (state_2015 []) = Ok (state_2015 []) ∧
  start_block df_gap true (state_2015 []) = Ok (animate df_gap (state_2015 []) []).
Proof.
  apply (start_block_empty_range df_gap (state_2015 []) 2000 1990).
  - vm_compute. reflexivity.
  - lia.
Defined.

(** Against C6 as stated: GDP is known in 2000 only and life expectancy in
    1990 only, so the range is empty; the Start block returns normally and
    leaves the page as it was: no error, no message. *)
Lemma start_block_empty_range_silent :
  minmaxYear df_gap "GDP" "Life" = (Some 2000, Some 1990) ∧
  start_block df_gap true (state_2015 []) = Ok (state_2015 []) ∧
  ¬ reports_empty_range (state_2015 []) (start_block df_gap true (state_2015 [])).
Proof.
  split; [by vm_compute|].
  assert (start_block df_gap true (state_2015 []) = Ok (state_2015 [])) as E
    by (by vm_compute).
  split; [done|]. rewrite E. cbn. intros H. by apply H.
Qed.

(** ** Stop *)

(** C5 (as the code has it): when a year is persisted in the session,
    Stop writes that year into the filter, whatever year the filter held,
    and sends exactly one more chart, built for that year with the global
    scales (its three scales carry a domain).  Every pass of the animation
    loop persists its year, so after an animation, whether it ran to the
    end or was cut short after a pass, the persisted year is the year the
    animation had reached: Stop restores that very year and leaves the
    filter as the animation left it. *)
Theorem stop_block_restores_persisted_year (df : list row) (st : state) (y : Z) :
  session_state st !! "year" = Some y →
  stop_block df true st =
    {| session_state := session_state st;
       st_keys := set_year y (st_keys st);
       page := page st ++
         [new_chart_altair_chart (plotBubbleChart df (set_year y (st_keys st)) true)] |} ∧
  key_year (st_keys (stop_block df true st)) = y ∧
  (∀ y0, st_keys (stop_block df true
           {| session_state := session_state st;
              st_keys := set_year y0 (st_keys st);
              page := page st |}) = set_year y (st_keys st)) ∧
  chart_updates (page (stop_block df true st)) =
    chart_updates (page st) ++ [plotBubbleChart df (set_year y (st_keys st)) true] ∧
  is_Some (x_domain (plotBubbleChart df (set_year y (st_keys st)) true)) ∧
  is_Some (y_domain (plotBubbleChart df (set_year y (st_keys st)) true)) ∧
  is_Some (size_domain (plotBubbleChart df (set_year y (st_keys st)) true)) ∧
  (∀ st0 ys reached,
     session_state (animate df st0 (ys ++ [reached])) !! "year" = Some reached ∧
     key_year (st_keys (animate df st0 (ys ++ [reached]))) = reached ∧
     key_year (st_keys (stop_block df true (animate df st0 (ys ++ [reached])))) =
       reached ∧
     st_keys (stop_block df true (animate df st0 (ys ++ [reached]))) =
       st_keys (animate df st0 (ys ++ [reached]))).
Proof.
  intros E. split; [|split; [|split; [|split; [|split; [|split; [|split]]]]]].
  - unfold stop_block. by rewrite E.
  - unfold stop_block. by rewrite E.
  - intros y0. unfold stop_block. cbn. rewrite E. cbn.
    by rewrite set_year_set_year.
  - unfold stop_block. rewrite E. cbn. by unfold chart_updates; rewrite omap_app.
  - done.
  - done.
  - done.
  - intros st0 ys reached.
    assert (session_state (animate df st0 (ys ++ [reached])) !! "year" = Some reached)
      as Es by apply animate_session.
    assert (st_keys (animate df st0 (ys ++ [reached])) = set_year reached (st_keys st0))
      as Ek by (by rewrite animate_keys, last_snoc).
    split; [done|]. split; [by rewrite Ek|].
    unfold stop_block. rewrite Es. cbn [st_keys]. rewrite Ek.
    by rewrite set_year_set_year.
Qed.

Lemma stop_block_restores_persisted_year_witness :
  key_year (st_keys (stop_block df_two_years true state_stopped)) = 2010 ∧
  key_year (st_keys state_stopped) = 2000 ∧
  st_keys (stop_block df_two_years true
             (animate df_two_years state_stopped [2000; 2001; 2002])) =
    st_keys (animate df_two_years state_stopped [2000; 2001; 2002]).
Proof.
  destruct (stop_block_restores_persisted_year df_two_years state_stopped 2010)
    as (_ & Hy & _ & _ & _ & _ & _ & Hrun).
  - vm_compute. reflexivity.
  - split; [exact Hy|]. split; [reflexivity|].
    apply (Hrun state_stopped [2000; 2001] 2002).
Defined.

(** Against C5 as stated: an animation cut short after the pass for 1967
    has reached the year 1967, and 1967 is the persisted year; Stop
    restores 1967, the year the animation had reached, and leaves the
    filter as the animation left it. *)
Lemma stop_restores_year_reached :
  year_labels (page (animate df_ranges (state_2015 []) [1965; 1966; 1967])) =
    [1965; 1966; 1967] ∧
  key_year (st_keys (animate df_ranges (state_2015 []) [1965; 1966; 1967])) = 1967 ∧
  session_state (animate df_ranges (state_2015 []) [1965; 1966; 1967]) !! "year" =
    Some 1967 ∧
  key_year (st_keys (stop_block df_ranges true
    (animate df_ranges (state_2015 []) [1965; 1966; 1967]))) = 1967 ∧
  st_keys (stop_block df_ranges true
    (animate df_ranges (state_2015 []) [1965; 1966; 1967])) =
    st_keys (animate df_ranges (state_2015 []) [1965; 1966; 1967]).
Proof. by vm_compute. Qed.

(** Stop after an interrupted run: the persisted year is the year of the
    last pass that ran. *)
Lemma stop_block_after_run (df : list row) (st : state) (ys : list Z) (y : Z) :
  st_keys (stop_block df true (animate df st (ys ++ [y]))) = set_year y (st_keys st).
Proof.
  unfold stop_block. rewrite animate_session. cbn.
  by rewrite animate_keys, last_snoc.
Qed.

(** C10: without a persisted year the Stop block changes nothing: the
    filter, the session and the page are as before. *)
Theorem stop_block_without_persisted_year (df : list row) (stop : bool) (st : state) :
  session_state st !! "year" = None →
  stop_block df stop st = st.
Proof. intros E. unfold stop_block. rewrite E. by destruct stop. Qed.

Lemma stop_block_without_persisted_year_witness :
  stop_block df_abc true (state_2015 []) = state_2015 [].
Proof.
  apply (stop_block_without_persisted_year df_abc true (state_2015 [])).
  vm_compute. reflexivity.
Defined.

(** ** Axis domains *)

(** The frame the scales are computed on is the frame restricted to the
    selected countries. *)
Lemma country_filter_selected_rows (df : list row) (keys : keys_t) :
  (if bool_decide (0 < length (key_countries keys))%nat
   then filter (λ r, Country r ∈ key_countries keys) df
   else df) = selected_rows df keys.
Proof.
  unfold selected_rows. case_bool_decide as Hlen.
  - apply list_filter_iff. intros r. split; [by right|].
    intros [E|?]; [|done]. rewrite E in Hlen. cbn in Hlen. lia.
  - destruct (key_countries keys) as [|c cs]; [|cbn in Hlen; lia].
    induction df as [|r df IH]; [done|].
    rewrite filter_cons_True by by left. by rewrite <- IH.
Qed.

Lemma selected_rows_nil (df : list row) (keys : keys_t) :
  key_countries keys = [] → selected_rows df keys = df.
Proof.
  intros E. rewrite <- country_filter_selected_rows. by rewrite E.
Qed.

Lemma global_domains_selected_rows (df : list row) (keys : keys_t) :
  x_domain (plotBubbleChart df keys true) =
    Some (min_max (selected_rows df keys) (key_x keys)) ∧
  y_domain (plotBubbleChart df keys true) =
    Some (min_max (selected_rows df keys) (key_y keys)) ∧
  size_domain (plotBubbleChart df keys true) =
    Some (min_max (selected_rows df keys) population).
Proof.
  unfold x_domain, y_domain, size_domain, plotBubbleChart. cbn.
  by rewrite country_filter_selected_rows.
Qed.

(** The scales never read [keys['year']]. *)
Lemma scales_set_year (df : list row) (keys : keys_t) (g : bool) (y : Z) :
  enc_x (plotBubbleChart df (set_year y keys) g) = enc_x (plotBubbleChart df keys g) ∧
  enc_y (plotBubbleChart df (set_year y keys) g) = enc_y (plotBubbleChart df keys g) ∧
  enc_size (plotBubbleChart df (set_year y keys) g) = enc_size (plotBubbleChart df keys g).
Proof. done. Qed.

(** C7 (as the code has it): with the global policy the x, y and size
    domains are the minimum and maximum, over all years, of the chosen
    indicators and of the population in the rows of the selected countries
    (of all rows when no country is selected); they do not depend on the
    year of the filter. *)
Theorem global_domains_of_selected_countries (df : list row) (keys : keys_t) :
  (x_domain (plotBubbleChart df keys true) =
     Some (min_max (selected_rows df keys) (key_x keys)) ∧
   y_domain (plotBubbleChart df keys true) =
     Some (min_max (selected_rows df keys) (key_y keys)) ∧
   size_domain (plotBubbleChart df keys true) =
     Some (min_max (selected_rows df keys) population)) ∧
  (∀ r, r ∈ selected_rows df keys ↔
     r ∈ df ∧ (key_countries keys = [] ∨ Country r ∈ key_countries keys)) ∧
  (∀ y, x_domain (plotBubbleChart df (set_year y keys) true) =
          x_domain (plotBubbleChart df keys true) ∧
        y_domain (plotBubbleChart df (set_year y keys) true) =
          y_domain (plotBubbleChart df keys true) ∧
        size_domain (plotBubbleChart df (set_year y keys) true) =
          size_domain (plotBubbleChart df keys true)) ∧
  (key_countries keys = [] → domains_of_full_frame df keys).
Proof.
  split; [apply global_domains_selected_rows|].
  split; [intros r; unfold selected_rows; rewrite list_elem_of_filter; tauto|].
  split; [done|].
  intros E. unfold domains_of_full_frame.
  pose proof (global_domains_selected_rows df keys) as H.
  by rewrite (selected_rows_nil _ _ E) in H.
Qed.

Lemma global_domains_of_selected_countries_witness :
  domains_of_full_frame df_two_years (keys_2015 []).
Proof.
  apply (global_domains_of_selected_countries df_two_years (keys_2015 [])).
  reflexivity.
Defined.

(** Against C7 as stated: with country A selected the x domain is that of
    the rows of A, 1 to 3, and not that of the whole frame, 1 to 70. *)
Lemma global_domains_follow_selection :
  x_domain (plotBubbleChart df_two_years (keys_2015 ["A"]) true) =
    Some (Some 1, Some 3) ∧
  min_max df_two_years "GDP" = (Some 1, Some 70) ∧
  x_domain (plotBubbleChart df_two_years (keys_2015 []) true) =
    Some (Some 1, Some 70) ∧
  ¬ domains_of_full_frame df_two_years (keys_2015 ["A"]).
Proof.
  split; [by vm_compute|]. split; [by vm_compute|]. split; [by vm_compute|].
  intros [H _]. vm_compute in H. discriminate H.
Qed.


(** ** Selection *)

Lemma filter_nil_Forall {A} (P : A → Prop) `{!∀ x, Decision (P x)} (l : list A) :
  (∀ x, x ∈ l → ¬ P x) → filter P l = [].
Proof.
  induction l as [|x l IH]; [done|]. intros Hall.
  rewrite filter_cons_False by (apply Hall; left).
  apply IH. intros y Hy. apply Hall. by right.
Qed.

(** The block on a payload [{'vlMulti': {'or': cs}}] whose constraints give
    an x column. *)
Lemma selection_block_or (df : list row)
    (selection : gmap string (gmap string (list (gmap string Z))))
    (st : state) (vl : gmap string (list (gmap string Z)))
    (cs : list (gmap string Z)) :
  selection !! "vlMulti" = Some vl → vl !! "or" = Some cs →
  Exists (λ d, is_Some (d !! key_x (st_keys st))) cs →
  selection_block df selection st =
    Ok {| session_state := session_state st;
          st_keys := st_keys st;
          page := page st ++
            selection_outputs df (st_keys st)
              (match_selection df (st_keys st)
                 ((λ d : gmap string Z, d !! key_x (st_keys st)) <$> cs)) |}.
Proof.
  intros Hvl Hor Hx. unfold selection_block. rewrite Hvl.
  rewrite bool_decide_eq_false_2
    by (intros ->; by rewrite lookup_empty in Hor).
  unfold getitem. rewrite Hor. cbn. unfold frame_column.
  by rewrite bool_decide_eq_true_2.
Qed.

(** The block on a payload without ["vlMulti"] or with an empty one. *)
Lemma selection_block_falsy (df : list row)
    (selection : gmap string (gmap string (list (gmap string Z)))) (st : state) :
  selection !! "vlMulti" = None ∨ selection !! "vlMulti" = Some ∅ →
  selection_block df selection st = Ok st.
Proof.
  intros [E|E]; unfold selection_block; rewrite E; [done|].
  by rewrite bool_decide_eq_true_2.
Qed.

Lemma elem_of_match_selection (df : list row) (keys : keys_t)
    (cs : list (gmap string Z)) (n : string) :
  Forall (λ d, is_Some (d !! key_x keys)) cs →
  n ∈ match_selection df keys ((λ d : gmap string Z, d !! key_x keys) <$> cs) ↔
  frame_matches df keys cs n.
Proof.
  intros Hall. unfold match_selection, frame_matches, matches_in.
  rewrite list_elem_of_fmap. split.
  - intros (r & -> & [[Hy (d & Hd & Hin)%list_elem_of_fmap] Hr]%list_elem_of_filter).
    exists r. split; [by apply list_elem_of_filter|]. split; [done|].
    destruct (proj1 (Forall_forall _ _) Hall d Hin) as [v Hv].
    exists v. split; [congruence|]. by exists d.
  - intros (r & [Hy Hr]%list_elem_of_filter & <- & v & Hv & d & Hin & Hd).
    exists r. split; [done|]. apply list_elem_of_filter. split; [|done].
    split; [done|]. apply list_elem_of_fmap. exists d. split; [congruence|done].
Qed.

(** C2 (as the code has it): on a selection with at least one point
    constraint, each naming the x field, the block shows the countries of
    the rows of the whole data frame that have the year of the filter and
    an x value among the x values of the constraints, rows outside the
    bubble chart's view included; the join reads the x field only. *)
Theorem selection_block_matches (df : list row)
    (selection : gmap string (gmap string (list (gmap string Z))))
    (st : state) (vl : gmap string (list (gmap string Z)))
    (cs : list (gmap string Z)) :
  selection !! "vlMulti" = Some vl → vl !! "or" = Some cs → cs ≠ [] →
  Forall (λ d, is_Some (d !! key_x (st_keys st))) cs →
  ∃ c,
    selection_block df selection st =
      Ok {| session_state := session_state st;
            st_keys := st_keys st;
            page := page st ++ selection_outputs df (st_keys st) c |} ∧
    c = match_selection df (st_keys st)
          ((λ d : gmap string Z, d !! key_x (st_keys st)) <$> cs) ∧
    (∀ n, n ∈ c ↔ frame_matches df (st_keys st) cs n) ∧
    (∀ n, view_matches df (st_keys st) cs n → n ∈ c).
Proof.
  intros Hvl Hor Hne Hall. eexists. split; [|split; [reflexivity|]].
  - apply (selection_block_or _ _ _ _ _ Hvl Hor).
    destruct cs as [|d cs]; [done|]. left. by inversion Hall.
  - split; [intros n; by apply elem_of_match_selection|].
    intros n (r & Hr & Hrest). apply elem_of_match_selection; [done|].
    exists r. split; [|done].
    rewrite plotBubbleChart_data_view in Hr.
    apply list_elem_of_filter in Hr as [(? & _) ?]. by apply list_elem_of_filter.
Qed.

Lemma selection_block_matches_witness :
  ∃ c,
    selection_block df_abc brush_10 (state_2015 []) =
      Ok {| session_state := ∅;
            st_keys := keys_2015 [];
            page := [] ++ selection_outputs df_abc (keys_2015 []) c |} ∧
    c = ["A"; "C"] ∧
    (∀ n, n ∈ c ↔ frame_matches df_abc (keys_2015 []) [{[ "GDP" := 10 ]}] n) ∧
    (∀ n, view_matches df_abc (keys_2015 []) [{[ "GDP" := 10 ]}] n → n ∈ c).
Proof.
  destruct (selection_block_matches df_abc brush_10 (state_2015 [])
              {[ "or" := [ {[ "GDP" := 10 ]} ] ]} [ {[ "GDP" := 10 ]} ])
    as (c & E & Hc & Hframe & Hview).
  - vm_compute. reflexivity.
  - vm_compute. reflexivity.
  - discriminate.
  - apply (bool_decide_unpack _). vm_compute. exact I.
  - exists c. split; [exact E|]. split; [|split; assumption].
    rewrite Hc. vm_compute. reflexivity.
Defined.

(** Against C2 as stated: D has the brushed GDP in 2015 but no life
    expectancy, so it is not in the view A, B, C of the bubble chart; the
    block shows A, C and D. *)
Lemma selection_reaches_outside_view :
  Country <$> chart_data (plotBubbleChart df_abcd (keys_2015 []) false) =
    ["A"; "B"; "C"] ∧
  selection_block df_abcd brush_10 (state_2015 []) =
    Ok {| session_state := ∅;
          st_keys := keys_2015 [];
          page := selection_outputs df_abcd (keys_2015 []) ["A"; "C"; "D"] |} ∧
  ¬ view_matches df_abcd (keys_2015 []) [{[ "GDP" := 10 ]}] "D".
Proof.
  assert (Country <$> chart_data (plotBubbleChart df_abcd (keys_2015 []) false) =
            ["A"; "B"; "C"]) as E by (by vm_compute).
  split; [done|]. split; [by vm_compute|].
  intros (r & Hr & Hc & _).
  apply (list_elem_of_fmap_2 Country) in Hr. rewrite Hc, E in Hr.
  by repeat (apply elem_of_cons in Hr as [?|Hr]; [done|]);
    apply elem_of_nil in Hr.
Qed.

(** C9 (as the code has it): on a selection without ["vlMulti"], or with
    an empty one, the block does nothing: no country is selected, nothing
    is shown, the filter keeps its countries and nothing is raised.  On a
    selection whose x values are those of no row of the data frame in the
    year of the filter, the block shows an empty list of countries, keeps
    the filter and raises nothing. *)
Theorem selection_block_no_match (df : list row)
    (selection : gmap string (gmap string (list (gmap string Z))))
    (st : state) :
  (selection !! "vlMulti" = None ∨ selection !! "vlMulti" = Some ∅ →
   selection_block df selection st = Ok st) ∧
  (∀ vl cs,
     selection !! "vlMulti" = Some vl → vl !! "or" = Some cs →
     Exists (λ d, is_Some (d !! key_x (st_keys st))) cs →
     (∀ r d, r ∈ df → Year r = key_year (st_keys st) → d ∈ cs →
        col r (key_x (st_keys st)) ≠ d !! key_x (st_keys st)) →
     selection_block df selection st =
       Ok {| session_state := session_state st;
             st_keys := st_keys st;
             page := page st ++ selection_outputs df (st_keys st) [] |}).
Proof.
  split; [apply selection_block_falsy|].
  intros vl cs Hvl Hor Hx Hno.
  rewrite (selection_block_or _ _ _ _ _ Hvl Hor Hx).
  unfold match_selection. rewrite filter_nil_Forall; [done|].
  intros r Hr [Hy (d & Hd & Hin)%list_elem_of_fmap].
  by apply (Hno r d).
Qed.

Lemma selection_block_no_match_witness :
  selection_block df_abc ∅ (state_2015 []) = Ok (state_2015 []) ∧
  selection_block df_abc brush_99 (state_2015 []) =
    Ok {| session_state := ∅;
          st_keys := keys_2015 [];
          page := [] ++ selection_outputs df_abc (keys_2015 []) [] |}.
Proof.
  split.
  - apply (proj1 (selection_block_no_match df_abc ∅ (state_2015 []))).
    left. reflexivity.
  - apply (proj2 (selection_block_no_match df_abc brush_99 (state_2015 []))
             {[ "or" := [ {[ "GDP" := 99 ]} ] ]} [ {[ "GDP" := 99 ]} ]).
    + vm_compute. reflexivity.
    + vm_compute. reflexivity.
    + apply (bool_decide_unpack _). vm_compute. exact I.
    + intros r d Hr _ ->%list_elem_of_singleton. revert r Hr.
      apply Forall_forall, (bool_decide_unpack _). vm_compute. exact I.
Defined.

(** Against C9 as stated: with country B selected the view of the bubble
    chart is the row of B, whose GDP is 20, so the brushed value 10 is
    absent from the view; the block still shows A, C and D. *)
Lemma selection_value_absent_from_view :
  Country <$> chart_data (plotBubbleChart df_abcd (keys_2015 ["B"]) false) = ["B"] ∧
  Forall (λ r, col r "GDP" ≠ Some 10)
    (chart_data (plotBubbleChart df_abcd (keys_2015 ["B"]) false)) ∧
  selection_block df_abcd brush_10 (state_2015 ["B"]) =
    Ok {| session_state := ∅;
          st_keys := keys_2015 ["B"];
          page := selection_outputs df_abcd (keys_2015 ["B"]) ["A"; "C"; "D"] |}.
Proof.
  split; [by vm_compute|]. split; [|by vm_compute].
  apply (bool_decide_unpack _). vm_compute. exact I.
Qed.

(** * Further properties of the code *)

(** ** Minimum and maximum of a column *)

Lemma series_min_spec (s : list (option Z)) :
  match series_min s with
  | Some m => Some m ∈ s ∧ ∀ v, Some v ∈ s → m ≤ v
  | None => ∀ v, Some v ∉ s
  end.
Proof.
  induction s as [|a s IH]; [intros v Hv; by apply elem_of_nil in Hv|].
  cbn. fold (series_min s). destruct (series_min s) as [m|], a as [u|]; cbn.
  - destruct IH as [Hm Hle]. split.
    + destruct (Z.min_spec u m) as [[_ ->]|[_ ->]]; [left|by right].
    + intros v [[= ->]|Hv]%elem_of_cons; [lia|]. specialize (Hle _ Hv). lia.
  - destruct IH as [Hm Hle]. split; [by right|].
    intros v [?|Hv]%elem_of_cons; [done|]. by apply Hle.
  - split; [left|].
    intros v [[= ->]|Hv]%elem_of_cons; [lia|]. by apply IH in Hv.
  - intros v [?|Hv]%elem_of_cons; [done|]. by apply IH in Hv.
Qed.

Lemma series_max_spec (s : list (option Z)) :
  match series_max s with
  | Some m => Some m ∈ s ∧ ∀ v, Some v ∈ s → v ≤ m
  | None => ∀ v, Some v ∉ s
  end.
Proof.
  induction s as [|a s IH]; [intros v Hv; by apply elem_of_nil in Hv|].
  cbn. fold (series_max s). destruct (series_max s) as [m|], a as [u|]; cbn.
  - destruct IH as [Hm Hle]. split.
    + destruct (Z.max_spec u m) as [[_ ->]|[_ ->]]; [by right|left].
    + intros v [[= ->]|Hv]%elem_of_cons; [lia|]. specialize (Hle _ Hv). lia.
  - destruct IH as [Hm Hle]. split; [by right|].
    intros v [?|Hv]%elem_of_cons; [done|]. by apply Hle.
  - split; [left|].
    intros v [[= ->]|Hv]%elem_of_cons; [lia|]. by apply IH in Hv.
  - intros v [?|Hv]%elem_of_cons; [done|]. by apply IH in Hv.
Qed.

Lemma elem_of_column (df : list row) (c : string) (v : option Z) :
  v ∈ column df c ↔ ∃ r, r ∈ df ∧ col r c = v.
Proof.
  unfold column. rewrite list_elem_of_fmap. split; intros (r & ? & ?); eauto.
Qed.

(** The minimum and maximum of a column that has the value [v] somewhere
    exist and enclose [v]. *)
Lemma min_max_encloses (df : list row) (c : string) (r : row) (v : Z) :
  r ∈ df → col r c = Some v →
  ∃ lo hi, min_max df c = (Some lo, Some hi) ∧ lo ≤ v ≤ hi.
Proof.
  intros Hr Hv. unfold min_max.
  assert (Some v ∈ column df c) as Hin by (apply elem_of_column; eauto).
  pose proof (series_min_spec (column df c)) as Hmin.
  pose proof (series_max_spec (column df c)) as Hmax.
  destruct (series_min (column df c)) as [lo|]; [|by apply Hmin in Hin].
  destruct (series_max (column df c)) as [hi|]; [|by apply Hmax in Hin].
  exists lo, hi. split; [done|].
  destruct Hmin as [_ Hlo], Hmax as [_ Hhi].
  specialize (Hlo _ Hin). specialize (Hhi _ Hin). lia.
Qed.

Lemma elem_of_selected_rows (df : list row) (keys : keys_t) (r : row) :
  r ∈ selected_rows df keys ↔
  r ∈ df ∧ (key_countries keys = [] ∨ Country r ∈ key_countries keys).
Proof. unfold selected_rows. rewrite list_elem_of_filter. tauto. Qed.

(** The rows of a frame of the animation are rows of the selected
    countries with a value for both indicators. *)
Lemma frame_row_selected (df : list row) (keys : keys_t) (g : bool) (y : Z) (r : row) :
  r ∈ chart_data (plotBubbleChart df (set_year y keys) g) →
  r ∈ selected_rows df keys ∧ Year r = y ∧
  is_Some (col r (key_x keys)) ∧ is_Some (col r (key_y keys)).
Proof.
  rewrite plotBubbleChart_data_view.
  intros [(Hy & Hx & Hyy & Hc) Hr]%list_elem_of_filter. cbn in *.
  rewrite elem_of_selected_rows, <- !not_eq_None_Some. done.
Qed.

(** ** The global axes *)

(** Every bubble of every frame lies within the global x and y axes: a row
    shown for any year has its x value inside the x domain computed with
    [global_max], and its y value inside the y domain. *)
Theorem global_domains_enclose_frames (df : list row) (keys : keys_t) (y : Z) (r : row) :
  r ∈ chart_data (plotBubbleChart df (set_year y keys) true) →
  ∃ vx vy lox hix loy hiy,
    col r (key_x keys) = Some vx ∧ col r (key_y keys) = Some vy ∧
    x_domain (plotBubbleChart df keys true) = Some (Some lox, Some hix) ∧
    y_domain (plotBubbleChart df keys true) = Some (Some loy, Some hiy) ∧
    x_domain (plotBubbleChart df (set_year y keys) true) = Some (Some lox, Some hix) ∧
    y_domain (plotBubbleChart df (set_year y keys) true) = Some (Some loy, Some hiy) ∧
    lox ≤ vx ≤ hix ∧ loy ≤ vy ≤ hiy.
Proof.
  intros (Hsel & _ & [vx Hx] & [vy Hy])%frame_row_selected.
  destruct (min_max_encloses _ _ _ _ Hsel Hx) as (lox & hix & Ex & ?).
  destruct (min_max_encloses _ _ _ _ Hsel Hy) as (loy & hiy & Ey & ?).
  exists vx, vy, lox, hix, loy, hiy.
  destruct (global_domains_selected_rows df keys) as (Dx & Dy & _).
  rewrite Ex in Dx. rewrite Ey in Dy. done.
Qed.

Lemma global_domains_enclose_frames_witness :
  ∃ vx vy lox hix loy hiy,
    col (mkrow "B" 2010 [("GDP", 70); ("Life", 66); ("Population, total", 950)])
        (key_x (keys_2015 [])) = Some vx ∧
    col (mkrow "B" 2010 [("GDP", 70); ("Life", 66); ("Population, total", 950)])
        (key_y (keys_2015 [])) = Some vy ∧
    x_domain (plotBubbleChart df_two_years (keys_2015 []) true) = Some (Some lox, Some hix) ∧
    y_domain (plotBubbleChart df_two_years (keys_2015 []) true) = Some (Some loy, Some hiy) ∧
    x_domain (plotBubbleChart df_two_years (set_year 2010 (keys_2015 [])) true) =
      Some (Some lox, Some hix) ∧
    y_domain (plotBubbleChart df_two_years (set_year 2010 (keys_2015 [])) true) =
      Some (Some loy, Some hiy) ∧
    lox ≤ vx ≤ hix ∧ loy ≤ vy ≤ hiy.
Proof.
  apply (global_domains_enclose_frames df_two_years (keys_2015 []) 2010).
  assert (chart_data (plotBubbleChart df_two_years (set_year 2010 (keys_2015 [])) true) =
            [mkrow "A" 2010 [("GDP", 3); ("Life", 60); ("Population, total", 120)];
             mkrow "B" 2010 [("GDP", 70); ("Life", 66); ("Population, total", 950)]])
    as -> by (vm_compute; reflexivity).
  right. left.
Defined.

Lemma min_max_attained (df : list row) (c : string) (lo hi : Z) :
  min_max df c = (Some lo, Some hi) →
  (∃ r, r ∈ df ∧ col r c = Some lo) ∧
  (∃ r, r ∈ df ∧ col r c = Some hi) ∧
  lo ≤ hi ∧
  (∀ r v, r ∈ df → col r c = Some v → lo ≤ v ≤ hi).
Proof.
  unfold min_max. intros [= Emin Emax].
  pose proof (series_min_spec (column df c)) as Hmin.
  pose proof (series_max_spec (column df c)) as Hmax.
  rewrite Emin in Hmin. rewrite Emax in Hmax.
  destruct Hmin as [Hlo Hle], Hmax as [Hhi Hge].
  split; [by apply elem_of_column|]. split; [by apply elem_of_column|].
  split; [by apply Hle|].
  intros r v Hr Hv.
  assert (Some v ∈ column df c) as Hin by (apply elem_of_column; eauto).
  specialize (Hle _ Hin). specialize (Hge _ Hin). lia.
Qed.

(** The bounds of the global x and y domains are values taken by rows of
    the selected countries (in some year), so the axes are as tight as the
    data of the selection over all years allow. *)
Theorem global_domains_attained (df : list row) (keys : keys_t) (lox hix loy hiy : Z) :
  x_domain (plotBubbleChart df keys true) = Some (Some lox, Some hix) →
  y_domain (plotBubbleChart df keys true) = Some (Some loy, Some hiy) →
  (∃ r, r ∈ selected_rows df keys ∧ col r (key_x keys) = Some lox) ∧
  (∃ r, r ∈ selected_rows df keys ∧ col r (key_x keys) = Some hix) ∧
  (∃ r, r ∈ selected_rows df keys ∧ col r (key_y keys) = Some loy) ∧
  (∃ r, r ∈ selected_rows df keys ∧ col r (key_y keys) = Some hiy) ∧
  lox ≤ hix ∧ loy ≤ hiy.
Proof.
  destruct (global_domains_selected_rows df keys) as (-> & -> & _).
  intros Ex%(inj Some) Ey%(inj Some).
  destruct (min_max_attained _ _ _ _ Ex) as (? & ? & ? & _).
  destruct (min_max_attained _ _ _ _ Ey) as (? & ? & ? & _).
  done.
Qed.

Lemma global_domains_attained_witness :
  (∃ r, r ∈ selected_rows df_two_years (keys_2015 ["A"]) ∧
        col r (key_x (keys_2015 ["A"])) = Some 1) ∧
  (∃ r, r ∈ selected_rows df_two_years (keys_2015 ["A"]) ∧
        col r (key_x (keys_2015 ["A"])) = Some 3) ∧
  (∃ r, r ∈ selected_rows df_two_years (keys_2015 ["A"]) ∧
        col r (key_y (keys_2015 ["A"])) = Some 50) ∧
  (∃ r, r ∈ selected_rows df_two_years (keys_2015 ["A"]) ∧
        col r (key_y (keys_2015 ["A"])) = Some 60) ∧
  1 ≤ 3 ∧ 50 ≤ 60.
Proof.
  apply (global_domains_attained df_two_years (keys_2015 ["A"]) 1 3 50 60).
  - vm_compute. reflexivity.
  - vm_compute. reflexivity.
Defined.

Lemma min_max_no_value (df : list row) (c : string) :
  (∀ r, r ∈ df → col r c = None) → min_max df c = (None, None).
Proof.
  intros Hnone. unfold min_max.
  pose proof (series_min_spec (column df c)) as Hmin.
  pose proof (series_max_spec (column df c)) as Hmax.
  destruct (series_min (column df c)) as [m|].
  { destruct Hmin as [(r & Hr & Hm)%elem_of_column _].
    by rewrite (Hnone _ Hr) in Hm. }
  destruct (series_max (column df c)) as [m|]; [|done].
  destruct Hmax as [(r & Hr & Hm)%elem_of_column _].
  by rewrite (Hnone _ Hr) in Hm.
Qed.

(** When no row of the selected countries has a value for the x indicator,
    the global x domain is [NaN, NaN] and the chart of every year is
    empty, under both scale policies. *)
Theorem global_domain_without_values (df : list row) (keys : keys_t) :
  (∀ r, r ∈ selected_rows df keys → col r (key_x keys) = None) →
  x_domain (plotBubbleChart df keys true) = Some (None, None) ∧
  ∀ y g, chart_data (plotBubbleChart df (set_year y keys) g) = [].
Proof.
  intros Hnone. split.
  - destruct (global_domains_selected_rows df keys) as (-> & _).
    by rewrite min_max_no_value.
  - intros y g.
    destruct (chart_data (plotBubbleChart df (set_year y keys) g)) as [|r l] eqn:E;
      [done|].
    assert (r ∈ chart_data (plotBubbleChart df (set_year y keys) g)) as Hr
      by (rewrite E; left).
    apply frame_row_selected in Hr as (Hsel & _ & [v Hv] & _).
    by rewrite (Hnone _ Hsel) in Hv.
Qed.

Lemma global_domain_without_values_witness :
  x_domain (plotBubbleChart df_gap (Keys "CO2" "Life" false false 1990 []) true) =
    Some (None, None) ∧
  ∀ y g, chart_data (plotBubbleChart df_gap
           (set_year y (Keys "CO2" "Life" false false 1990 [])) g) = [].
Proof.
  apply (global_domain_without_values df_gap (Keys "CO2" "Life" false false 1990 [])).
  intros r Hr%elem_of_selected_rows. destruct Hr as [Hr _]. revert r Hr.
  apply Forall_forall, (bool_decide_unpack _). vm_compute. exact I.
Defined.

(** ** The animation loop, continued *)

(** A Start block that returns has run the loop over a range of integers. *)
Lemma start_block_Ok (df : list row) (st st' : state) :
  start_block df true st = Ok st' →
  ∃ first last,
    minmaxYear df (key_x (st_keys st)) (key_y (st_keys st)) = (Some first, Some last) ∧
    st' = animate df st (seqZ first (last + 1 - first)).
Proof.
  unfold start_block.
  destruct (minmaxYear df (key_x (st_keys st)) (key_y (st_keys st)))
    as [[first|] [last|]]; cbn; try discriminate.
  intros [= <-]. by exists first, last.
Qed.

Lemma animate_session_other (df : list row) (st : state) (ys : list Z) (k : string) :
  k ≠ "year" → session_state (animate df st ys) !! k = session_state st !! k.
Proof.
  intros Hk. induction ys as [|y ys IH] using rev_ind; [done|].
  rewrite animate_snoc. cbn. by rewrite lookup_insert_ne.
Qed.

(** The axes are fixed during the animation: all charts sent by a Start
    block have the same x, y and size encodings, scales and domains
    included, which are those of the global chart of the filter it
    started from. *)
Theorem animation_axes_fixed (df : list row) (st st' : state) :
  start_block df true st = Ok st' →
  ∃ cs,
    chart_updates (page st') = chart_updates (page st) ++ cs ∧
    ∀ c, c ∈ cs →
      enc_x c = enc_x (plotBubbleChart df (st_keys st) true) ∧
      enc_y c = enc_y (plotBubbleChart df (st_keys st) true) ∧
      enc_size c = enc_size (plotBubbleChart df (st_keys st) true).
Proof.
  intros (first & last & _ & ->)%start_block_Ok.
  exists ((λ y, plotBubbleChart df (set_year y (st_keys st)) true) <$>
            seqZ first (last + 1 - first)).
  split.
  - rewrite animate_page. unfold chart_updates. rewrite omap_app.
    fold (chart_updates (mjoin (frame df (st_keys st) <$> seqZ first (last + 1 - first)))).
    by rewrite chart_updates_frames.
  - intros c (y & -> & _)%list_elem_of_fmap. apply scales_set_year.
Qed.

Lemma animation_axes_fixed_witness :
  ∃ cs,
    chart_updates (page (animate df_ranges (state_2015 []) (seqZ 1965 51))) =
      chart_updates (page (state_2015 [])) ++ cs ∧
    ∀ c, c ∈ cs →
      enc_x c = enc_x (plotBubbleChart df_ranges (st_keys (state_2015 [])) true) ∧
      enc_y c = enc_y (plotBubbleChart df_ranges (st_keys (state_2015 [])) true) ∧
      enc_size c = enc_size (plotBubbleChart df_ranges (st_keys (state_2015 [])) true).
Proof.
  apply (animation_axes_fixed df_ranges (state_2015 [])).
  vm_compute. reflexivity.
Defined.

(** The Start block touches the year only: on return the other five
    entries of the filter and every session entry but ["year"] are as
    before, and what was on the page is still there, in front. *)
Theorem start_block_frame (df : list row) (start : bool) (st st' : state) :
  start_block df start st = Ok st' →
  key_x (st_keys st') = key_x (st_keys st) ∧
  key_y (st_keys st') = key_y (st_keys st) ∧
  key_x_log (st_keys st') = key_x_log (st_keys st) ∧
  key_y_log (st_keys st') = key_y_log (st_keys st) ∧
  key_countries (st_keys st') = key_countries (st_keys st) ∧
  (∀ k, k ≠ "year" → session_state st' !! k = session_state st !! k) ∧
  page st `prefix_of` page st'.
Proof.
  destruct start.
  - intros (first & last & _ & ->)%start_block_Ok.
    rewrite animate_keys, animate_page. cbn.
    repeat split; try done.
    + intros k Hk. by apply animate_session_other.
    + by apply prefix_app_r.
  - unfold start_block.
    destruct (minmaxYear df (key_x (st_keys st)) (key_y (st_keys st))).
    intros [= <-]. by repeat split.
Qed.

Lemma start_block_frame_witness :
  key_x (st_keys (animate df_ranges (state_2015 ["A"]) (seqZ 1965 51))) =
    key_x (st_keys (state_2015 ["A"])) ∧
  key_y (st_keys (animate df_ranges (state_2015 ["A"]) (seqZ 1965 51))) =
    key_y (st_keys (state_2015 ["A"])) ∧
  key_x_log (st_keys (animate df_ranges (state_2015 ["A"]) (seqZ 1965 51))) =
    key_x_log (st_keys (state_2015 ["A"])) ∧
  key_y_log (st_keys (animate df_ranges (state_2015 ["A"]) (seqZ 1965 51))) =
    key_y_log (st_keys (state_2015 ["A"])) ∧
  key_countries (st_keys (animate df_ranges (state_2015 ["A"]) (seqZ 1965 51))) =
    key_countries (st_keys (state_2015 ["A"])) ∧
  (∀ k, k ≠ "year" →
     session_state (animate df_ranges (state_2015 ["A"]) (seqZ 1965 51)) !! k =
     session_state (state_2015 ["A"]) !! k) ∧
  page (state_2015 ["A"]) `prefix_of`
    page (animate df_ranges (state_2015 ["A"]) (seqZ 1965 51)).
Proof.
  apply (start_block_frame df_ranges true (state_2015 ["A"])).
  vm_compute. reflexivity.
Defined.

(** ** The animation range, continued *)

Lemma series_min_years_le (df : list row) (c : string) (r : row) :
  r ∈ df → col r c ≠ None →
  ∃ m, series_min (years (dropna df c)) = Some m ∧ m ≤ Year r.
Proof.
  intros Hr Hc.
  assert (r ∈ dropna df c) as Hin by by apply elem_of_dropna.
  pose proof (series_min_years (dropna df c)) as H.
  destruct (series_min (years (dropna df c))) as [m|].
  - exists m. split; [done|]. by apply H.
  - rewrite H in Hin. by apply elem_of_nil in Hin.
Qed.

Lemma series_max_years_ge (df : list row) (c : string) (r : row) :
  r ∈ df → col r c ≠ None →
  ∃ m, series_max (years (dropna df c)) = Some m ∧ Year r ≤ m.
Proof.
  intros Hr Hc.
  assert (r ∈ dropna df c) as Hin by by apply elem_of_dropna.
  pose proof (series_max_years (dropna df c)) as H.
  destruct (series_max (years (dropna df c))) as [m|].
  - exists m. split; [done|]. by apply H.
  - rewrite H in Hin. by apply elem_of_nil in Hin.
Qed.

Lemma dropna_no_value (df : list row) (c : string) :
  (∀ r, r ∈ df → col r c = None) → dropna df c = [].
Proof.
  intros Hnone. unfold dropna. apply filter_nil_Forall.
  intros r Hr [v Hv]. by rewrite (Hnone _ Hr) in Hv.
Qed.

(** A year in which both indicators have a value (in the same row or in
    two rows) is never cut off: the range of [minmaxYear] is then made of
    two integers and holds that year. *)
Theorem minmaxYear_covers_common_years (df : list row) (x y : string)
    (rx ry : row) (y0 : Z) :
  rx ∈ df → col rx x ≠ None → Year rx = y0 →
  ry ∈ df → col ry y ≠ None → Year ry = y0 →
  ∃ first last, minmaxYear df x y = (Some first, Some last) ∧ first ≤ y0 ≤ last.
Proof.
  intros Hrx Hx <- Hry Hy Ey.
  destruct (series_min_years_le _ _ _ Hrx Hx) as (fx & Efx & ?).
  destruct (series_max_years_ge _ _ _ Hrx Hx) as (lx & Elx & ?).
  destruct (series_min_years_le _ _ _ Hry Hy) as (fy & Efy & ?).
  destruct (series_max_years_ge _ _ _ Hry Hy) as (ly & Ely & ?).
  exists (Z.max fx fy), (Z.min lx ly). split; [|lia].
  unfold minmaxYear. rewrite Efx, Efy, Elx, Ely.
  by rewrite py_max_Some, py_min_Some.
Qed.

Lemma minmaxYear_covers_common_years_witness :
  ∃ first last,
    minmaxYear df_ranges "GDP" "Life" = (Some first, Some last) ∧ first ≤ 2015 ≤ last.
Proof.
  apply (minmaxYear_covers_common_years df_ranges "GDP" "Life"
           (mkrow "A" 2015 [("GDP", 30); ("Life", 71)])
           (mkrow "A" 2015 [("GDP", 30); ("Life", 71)]) 2015).
  - right. right. left.
  - vm_compute. discriminate.
  - reflexivity.
  - right. right. left.
  - vm_compute. discriminate.
  - reflexivity.
Defined.

(** When the x indicator has no value at all, [minmaxYear] returns
    (NaN, NaN) whatever the y indicator holds; the script still runs when
    Start is not pressed, and pressing Start raises a [TypeError] in
    [range]. *)
Theorem start_block_x_without_values (df : list row) (st : state) :
  (∀ r, r ∈ df → col r (key_x (st_keys st)) = None) →
  minmaxYear df (key_x (st_keys st)) (key_y (st_keys st)) = (None, None) ∧
  start_block df false st = Ok st ∧
  start_block df true st = Raise TypeError.
Proof.
  intros Hnone.
  assert (minmaxYear df (key_x (st_keys st)) (key_y (st_keys st)) = (None, None)) as E.
  { unfold minmaxYear. rewrite (dropna_no_value _ _ Hnone). cbn.
    unfold py_max, py_min, py_gt.
    by destruct (series_min (years (dropna df (key_y (st_keys st))))). }
  split; [done|]. unfold start_block. by rewrite E.
Qed.

Lemma start_block_x_without_values_witness :
  minmaxYear df_gap "CO2" "Life" = (None, None) ∧
  start_block df_gap false (State ∅ (Keys "CO2" "Life" false false 1990 []) []) =
    Ok (State ∅ (Keys "CO2" "Life" false false 1990 []) []) ∧
  start_block df_gap true (State ∅ (Keys "CO2" "Life" false false 1990 []) []) =
    Raise TypeError.
Proof.
  apply (start_block_x_without_values df_gap
           (State ∅ (Keys "CO2" "Life" false false 1990 []) [])).
  apply Forall_forall, (bool_decide_unpack _). vm_compute. exact I.
Defined.

(** When only the y indicator has no value at all, the NaN is dropped by
    [max] and [min]: the range is the x indicator's own range, and the
    bubble chart is empty for every year and filter. *)
Theorem minmaxYear_y_without_values (df : list row) (x y : string) (fx lx : Z) :
  (∀ r, r ∈ df → col r y = None) →
  first_valid_year df x fx → last_valid_year df x lx →
  minmaxYear df x y = (Some fx, Some lx) ∧
  ∀ keys g, key_x keys = x → key_y keys = y →
    chart_data (plotBubbleChart df keys g) = [].
Proof.
  intros Hnone Hfx Hlx. split.
  - unfold minmaxYear.
    rewrite (series_min_first_valid _ _ _ Hfx), (series_max_last_valid _ _ _ Hlx).
    by rewrite (dropna_no_value _ _ Hnone).
  - intros keys g _ <-. rewrite plotBubbleChart_data_view.
    apply filter_nil_Forall. intros r Hr (_ & _ & Hy & _).
    by apply Hy, Hnone.
Qed.

Lemma minmaxYear_y_without_values_witness :
  minmaxYear df_ranges "GDP" "CO2" = (Some 1965, Some 2018) ∧
  ∀ keys g, key_x keys = "GDP" → key_y keys = "CO2" →
    chart_data (plotBubbleChart df_ranges keys g) = [].
Proof.
  apply (minmaxYear_y_without_values df_ranges "GDP" "CO2" 1965 2018).
  - apply Forall_forall, (bool_decide_unpack _). vm_compute. exact I.
  - apply first_valid_year_alt, (bool_decide_unpack _). vm_compute. exact I.
  - apply last_valid_year_alt, (bool_decide_unpack _). vm_compute. exact I.
Defined.

(** When each indicator has a value somewhere, the order in which the two
    indicators are given does not change the range. *)
Theorem minmaxYear_comm (df : list row) (x y : string) (rx ry : row) :
  rx ∈ df → col rx x ≠ None → ry ∈ df → col ry y ≠ None →
  minmaxYear df x y = minmaxYear df y x.
Proof.
  intros Hrx Hx Hry Hy.
  destruct (series_min_years_le _ _ _ Hrx Hx) as (fx & Efx & _).
  destruct (series_max_years_ge _ _ _ Hrx Hx) as (lx & Elx & _).
  destruct (series_min_years_le _ _ _ Hry Hy) as (fy & Efy & _).
  destruct (series_max_years_ge _ _ _ Hry Hy) as (ly & Ely & _).
  unfold minmaxYear. rewrite Efx, Efy, Elx, Ely.
  rewrite !py_max_Some, !py_min_Some. by rewrite Z.max_comm, Z.min_comm.
Qed.

Lemma minmaxYear_comm_witness :
  minmaxYear df_ranges "GDP" "Life" = minmaxYear df_ranges "Life" "GDP".
Proof.
  apply (minmaxYear_comm df_ranges "GDP" "Life"
           (mkrow "A" 2015 [("GDP", 30); ("Life", 71)])
           (mkrow "A" 2015 [("GDP", 30); ("Life", 71)])).
  - right. right. left.
  - vm_compute. discriminate.
  - right. right. left.
  - vm_compute. discriminate.
Defined.

(** ** Stop, continued *)

Lemma seqZ_last (first last : Z) :
  first ≤ last →
  seqZ first (last + 1 - first) = seqZ first (last - first) ++ [last].
Proof.
  intros Hle. replace (last + 1 - first) with ((last - first) + 1) by lia.
  rewrite seqZ_app by lia.
  by replace (first + (last - first)) with last by lia.
Qed.

(** Stop in a run that follows a completed animation: with the indicators,
    the scales and the countries as they were, whatever year the slider
    holds and whatever is on the page, the Stop block sets the year to the
    last year of the range and sends again the last chart of the
    animation. *)
Theorem stop_after_start (df : list row) (st : state) (first last y0 : Z)
    (p : list output) :
  minmaxYear df (key_x (st_keys st)) (key_y (st_keys st)) = (Some first, Some last) →
  first ≤ last →
  ∃ st' c,
    start_block df true st = Ok st' ∧
    list.last (chart_updates (page st')) = Some c ∧
    stop_block df true
      {| session_state := session_state st';
         st_keys := set_year y0 (st_keys st);
         page := p |} =
      {| session_state := session_state st';
         st_keys := set_year last (st_keys st);
         page := p ++ [new_chart_altair_chart c] |}.
Proof.
  intros E Hle.
  exists (animate df st (seqZ first (last + 1 - first))),
    (plotBubbleChart df (set_year last (st_keys st)) true).
  split; [by apply start_block_range|].
  rewrite (seqZ_last _ _ Hle). split.
  - rewrite animate_page. unfold chart_updates. rewrite omap_app.
    fold (chart_updates
            (mjoin (frame df (st_keys st) <$> seqZ first (last - first) ++ [last]))).
    rewrite chart_updates_frames, fmap_app, app_assoc. apply last_snoc.
  - unfold stop_block. cbn [session_state]. rewrite animate_session.
    cbn [st_keys page]. by rewrite set_year_set_year.
Qed.

Lemma stop_after_start_witness :
  ∃ st' c,
    start_block df_ranges true (state_2015 []) = Ok st' ∧
    list.last (chart_updates (page st')) = Some c ∧
    stop_block df_ranges true
      {| session_state := session_state st';
         st_keys := set_year 1990 (st_keys (state_2015 []));
         page := [] |} =
      {| session_state := session_state st';
         st_keys := set_year 2015 (st_keys (state_2015 []));
         page := [] ++ [new_chart_altair_chart c] |}.
Proof.
  apply (stop_after_start df_ranges (state_2015 []) 1965 2015 1990 []).
  - vm_compute. reflexivity.
  - lia.
Defined.

(** What the Stop block leaves alone: it never writes the session, it
    changes no entry of the filter but the year, what was on the page
    stays in front, and a second Stop changes the filter no further. *)
Theorem stop_block_frame (df : list row) (stop : bool) (st : state) :
  session_state (stop_block df stop st) = session_state st ∧
  (∃ y, st_keys (stop_block df stop st) = set_year y (st_keys st)) ∧
  page st `prefix_of` page (stop_block df stop st) ∧
  st_keys (stop_block df stop (stop_block df stop st)) =
    st_keys (stop_block df stop st).
Proof.
  unfold stop_block.
  destruct stop, (session_state st !! "year") as [y|] eqn:E; cbn; rewrite ?E; cbn.
  1: { split; [done|]. split; [by exists y|]. split; [by apply prefix_app_r|done]. }
  all: split; [done|]; split;
    [exists (key_year (st_keys st)); by destruct (st_keys st)|done].
Qed.

(** ** Selection, continued *)

(** A non-empty ["vlMulti"] payload without an ["or"] entry: the block
    raises [KeyError: 'or']. *)
Theorem selection_block_missing_or (df : list row)
    (selection : gmap string (gmap string (list (gmap string Z))))
    (st : state) (vl : gmap string (list (gmap string Z))) :
  selection !! "vlMulti" = Some vl → vl ≠ ∅ → vl !! "or" = None →
  selection_block df selection st = Raise (KeyError "or").
Proof.
  intros Hvl Hne Hor. unfold selection_block. rewrite Hvl.
  rewrite bool_decide_eq_false_2 by done.
  unfold getitem. by rewrite Hor.
Qed.

Lemma selection_block_missing_or_witness :
  selection_block df_abc {[ "vlMulti" := {[ "and" := [] ]} ]} (state_2015 []) =
    Raise (KeyError "or").
Proof.
  apply (selection_block_missing_or df_abc {[ "vlMulti" := {[ "and" := [] ]} ]}
           (state_2015 []) {[ "and" := [] ]}).
  - vm_compute. reflexivity.
  - apply (bool_decide_unpack _). vm_compute. exact I.
  - vm_compute. reflexivity.
Defined.

(** When no point constraint names the x field of the filter, as with an
    empty list of constraints, the frame made of the constraints has no
    such column and the block raises [KeyError] on the name of the
    field. *)
Theorem selection_block_missing_x_field (df : list row)
    (selection : gmap string (gmap string (list (gmap string Z))))
    (st : state) (vl : gmap string (list (gmap string Z)))
    (cs : list (gmap string Z)) :
  selection !! "vlMulti" = Some vl → vl !! "or" = Some cs →
  Forall (λ d, d !! key_x (st_keys st) = None) cs →
  selection_block df selection st = Raise (KeyError (key_x (st_keys st))).
Proof.
  intros Hvl Hor Hall. unfold selection_block. rewrite Hvl.
  rewrite bool_decide_eq_false_2
    by (intros ->; by rewrite lookup_empty in Hor).
  unfold getitem. rewrite Hor. cbn. unfold frame_column.
  rewrite bool_decide_eq_false_2; [done|].
  intros (d & Hd & [v Hv])%Exists_exists.
  rewrite (proj1 (Forall_forall _ _) Hall d Hd) in Hv. discriminate.
Qed.

Lemma selection_block_missing_x_field_witness :
  selection_block df_abc {[ "vlMulti" := {[ "or" := [ {[ "Life" := 70 ]} ] ]} ]}
    (state_2015 []) = Raise (KeyError (key_x (st_keys (state_2015 [])))).
Proof.
  apply (selection_block_missing_x_field df_abc
           {[ "vlMulti" := {[ "or" := [ {[ "Life" := 70 ]} ] ]} ]}
           (state_2015 []) {[ "or" := [ {[ "Life" := 70 ]} ] ]} [ {[ "Life" := 70 ]} ]).
  - vm_compute. reflexivity.
  - vm_compute. reflexivity.
  - apply (bool_decide_unpack _). vm_compute. exact I.
Defined.

Lemma elem_of_match_selection_rows (df : list row) (keys : keys_t)
    (sx : list (option Z)) (n : string) :
  n ∈ match_selection df keys sx ↔
  ∃ r, r ∈ df ∧ Country r = n ∧ Year r = key_year keys ∧ col r (key_x keys) ∈ sx.
Proof.
  unfold match_selection. rewrite list_elem_of_fmap. split.
  - intros (r & -> & [[? ?] ?]%list_elem_of_filter). by exists r.
  - intros (r & ? & <- & ? & ?). exists r. split; [done|].
    by apply list_elem_of_filter.
Qed.

(** After a selection the connected scatterplot holds the rows of the
    whole data frame, in the order of the frame, of every matched country:
    all its years, with or without values, and no row of another country.
    Neither the year nor the countries of the filter restrict the lines. *)
Theorem selection_scatterplot_rows (df : list row)
    (selection : gmap string (gmap string (list (gmap string Z))))
    (st : state) (vl : gmap string (list (gmap string Z)))
    (cs : list (gmap string Z)) :
  selection !! "vlMulti" = Some vl → vl !! "or" = Some cs →
  Exists (λ d, is_Some (d !! key_x (st_keys st))) cs →
  ∃ c ch,
    selection_block df selection st =
      Ok {| session_state := session_state st;
            st_keys := st_keys st;
            page := page st ++
              [st_success "Match found!"; st_dataframe c; st_altair_chart ch] |} ∧
    chart_mark ch = mark_line ∧
    chart_data ch `sublist_of` df ∧
    ∀ r, r ∈ chart_data ch ↔
      r ∈ df ∧
      ∃ r0, r0 ∈ df ∧ Country r0 = Country r ∧
        Year r0 = key_year (st_keys st) ∧
        col r0 (key_x (st_keys st)) ∈
          ((λ d : gmap string Z, d !! key_x (st_keys st)) <$> cs).
Proof.
  intros Hvl Hor Hx.
  exists (match_selection df (st_keys st)
            ((λ d : gmap string Z, d !! key_x (st_keys st)) <$> cs)).
  eexists. split; [by apply (selection_block_or _ _ _ _ _ Hvl Hor)|].
  cbn [chart_mark chart_data plotConnectedScatterplot].
  split; [done|]. split; [apply sublist_filter|].
  intros r. rewrite list_elem_of_filter, elem_of_match_selection_rows. tauto.
Qed.

Lemma selection_scatterplot_rows_witness :
  ∃ c ch,
    selection_block df_two_years {[ "vlMulti" := {[ "or" := [ {[ "GDP" := 40 ]} ] ]} ]}
        (State ∅ (Keys "GDP" "Life" true false 2000 ["A"]) []) =
      Ok {| session_state := ∅;
            st_keys := Keys "GDP" "Life" true false 2000 ["A"];
            page := [] ++
              [st_success "Match found!"; st_dataframe c; st_altair_chart ch] |} ∧
    chart_mark ch = mark_line ∧
    chart_data ch `sublist_of` df_two_years ∧
    ∀ r, r ∈ chart_data ch ↔
      r ∈ df_two_years ∧
      ∃ r0, r0 ∈ df_two_years ∧ Country r0 = Country r ∧
        Year r0 = 2000 ∧
        col r0 "GDP" ∈ ((λ d : gmap string Z, d !! "GDP") <$> [ {[ "GDP" := 40 ]} ]).
Proof.
  apply (selection_scatterplot_rows df_two_years
           {[ "vlMulti" := {[ "or" := [ {[ "GDP" := 40 ]} ] ]} ]}
           (State ∅ (Keys "GDP" "Life" true false 2000 ["A"]) [])
           {[ "or" := [ {[ "GDP" := 40 ]} ] ]} [ {[ "GDP" := 40 ]} ]).
  - vm_compute. reflexivity.
  - vm_compute. reflexivity.
  - apply (bool_decide_unpack _). vm_compute. exact I.
Defined.

(** A selection handled in the run of a completed animation is joined on
    the last year of the range, the year the loop left in the filter, and
    not on the year the run started with. *)
Theorem selection_after_start (df : list row)
    (selection : gmap string (gmap string (list (gmap string Z))))
    (st : state) (vl : gmap string (list (gmap string Z)))
    (cs : list (gmap string Z)) (first last : Z) :
  minmaxYear df (key_x (st_keys st)) (key_y (st_keys st)) = (Some first, Some last) →
  first ≤ last →
  selection !! "vlMulti" = Some vl → vl !! "or" = Some cs →
  Exists (λ d, is_Some (d !! key_x (st_keys st))) cs →
  ∃ st' c,
    start_block df true st = Ok st' ∧
    selection_block df selection st' =
      Ok {| session_state := session_state st';
            st_keys := st_keys st';
            page := page st' ++ selection_outputs df (st_keys st') c |} ∧
    ∀ n, n ∈ c ↔
      ∃ r, r ∈ df ∧ Country r = n ∧ Year r = last ∧
        col r (key_x (st_keys st)) ∈
          ((λ d : gmap string Z, d !! key_x (st_keys st)) <$> cs).
Proof.
  intros E Hle Hvl Hor Hx.
  set (st' := animate df st (seqZ first (last + 1 - first))).
  assert (st_keys st' = set_year last (st_keys st)) as Hk.
  { unfold st'. by rewrite animate_keys, (seqZ_last _ _ Hle), last_snoc. }
  exists st'. eexists. split; [by apply start_block_range|].
  split.
  - apply (selection_block_or _ _ _ _ _ Hvl Hor). by rewrite Hk.
  - intros n. rewrite elem_of_match_selection_rows. by rewrite Hk.
Qed.

Lemma selection_after_start_witness :
  ∃ st' c,
    start_block df_two_years true
        (State ∅ (Keys "GDP" "Life" true false 2000 []) []) = Ok st' ∧
    selection_block df_two_years {[ "vlMulti" := {[ "or" := [ {[ "GDP" := 70 ]} ] ]} ]} st' =
      Ok {| session_state := session_state st';
            st_keys := st_keys st';
            page := page st' ++ selection_outputs df_two_years (st_keys st') c |} ∧
    ∀ n, n ∈ c ↔
      ∃ r, r ∈ df_two_years ∧ Country r = n ∧ Year r = 2010 ∧
        col r "GDP" ∈ ((λ d : gmap string Z, d !! "GDP") <$> [ {[ "GDP" := 70 ]} ]).
Proof.
  apply (selection_after_start df_two_years
           {[ "vlMulti" := {[ "or" := [ {[ "GDP" := 70 ]} ] ]} ]}
           (State ∅ (Keys "GDP" "Life" true false 2000 []) [])
           {[ "or" := [ {[ "GDP" := 70 ]} ] ]} [ {[ "GDP" := 70 ]} ] 2000 2010).
  - vm_compute. reflexivity.
  - lia.
  - vm_compute. reflexivity.
  - vm_compute. reflexivity.
  - apply (bool_decide_unpack _). vm_compute. exact I.
Defined.

(** A selection handled in a run where Stop restored a persisted year is
    joined on that year, whatever year the filter held before. *)
Theorem selection_after_stop (df : list row)
    (selection : gmap string (gmap string (list (gmap string Z))))
    (st : state) (vl : gmap string (list (gmap string Z)))
    (cs : list (gmap string Z)) (y : Z) :
  session_state st !! "year" = Some y →
  selection !! "vlMulti" = Some vl → vl !! "or" = Some cs →
  Exists (λ d, is_Some (d !! key_x (st_keys st))) cs →
  ∃ c,
    selection_block df selection (stop_block df true st) =
      Ok {| session_state := session_state st;
            st_keys := set_year y (st_keys st);
            page := page (stop_block df true st) ++
              selection_outputs df (set_year y (st_keys st)) c |} ∧
    ∀ n, n ∈ c ↔
      ∃ r, r ∈ df ∧ Country r = n ∧ Year r = y ∧
        col r (key_x (st_keys st)) ∈
          ((λ d : gmap string Z, d !! key_x (st_keys st)) <$> cs).
Proof.
  intros E Hvl Hor Hx.
  assert (stop_block df true st =
            {| session_state := session_state st;
               st_keys := set_year y (st_keys st);
               page := page st ++
                 [new_chart_altair_chart
                    (plotBubbleChart df (set_year y (st_keys st)) true)] |}) as ->.
  { unfold stop_block. by rewrite E. }
  eexists. split.
  - by apply (selection_block_or df selection
                {| session_state := session_state st;
                   st_keys := set_year y (st_keys st);
                   page := page st ++
                     [new_chart_altair_chart
                        (plotBubbleChart df (set_year y (st_keys st)) true)] |}
                vl cs Hvl Hor).
  - intros n. by rewrite elem_of_match_selection_rows.
Qed.

Lemma selection_after_stop_witness :
  ∃ c,
    selection_block df_two_years brush_70 (stop_block df_two_years true state_stopped) =
      Ok {| session_state := session_state state_stopped;
            st_keys := set_year 2010 (st_keys state_stopped);
            page := page (stop_block df_two_years true state_stopped) ++
              selection_outputs df_two_years
                (set_year 2010 (st_keys state_stopped)) c |} ∧
    ∀ n, n ∈ c ↔
      ∃ r, r ∈ df_two_years ∧ Country r = n ∧ Year r = 2010 ∧
        col r (key_x (st_keys state_stopped)) ∈
          ((λ d : gmap string Z, d !! key_x (st_keys state_stopped)) <$>
             [ {[ "GDP" := 70 ]} ]).
Proof.
  apply (selection_after_stop df_two_years brush_70 state_stopped
           {[ "or" := [ {[ "GDP" := 70 ]} ] ]} [ {[ "GDP" := 70 ]} ] 2010).
  - vm_compute. reflexivity.
  - vm_compute. reflexivity.
  - vm_compute. reflexivity.
  - apply (bool_decide_unpack _). vm_compute. exact I.
Defined.

(** ** The first chart and the bubble chart *)

(** For the indicators, the scales and the year of the first chart and no
    selected country, [plotBubbleChart] builds the first chart on the rows
    of 2012 that have both values: the encodings are the same, and the
    rows the first chart holds beyond those of the bubble chart are the
    rows of 2012 without GDP per capita or without life expectancy. *)
Theorem first_chart_is_bubble_chart (df : list row) :
  plotBubbleChart df first_chart_keys false =
    plotTheFirstChart
      (filter (λ r, is_Some (col r gdp_per_capita) ∧ is_Some (col r life_expectancy))
         (source_2012 df)) ∧
  chart_data (plotBubbleChart df first_chart_keys false) `sublist_of`
    chart_data (plotTheFirstChart (source_2012 df)) ∧
  ∀ r, r ∈ chart_data (plotTheFirstChart (source_2012 df)) →
    r ∉ chart_data (plotBubbleChart df first_chart_keys false) →
    col r gdp_per_capita = None ∨ col r life_expectancy = None.
Proof.
  assert (plotBubbleChart df first_chart_keys false =
    plotTheFirstChart
      (filter (λ r, is_Some (col r gdp_per_capita) ∧ is_Some (col r life_expectancy))
         (source_2012 df))) as E by done.
  split; [done|]. rewrite E. cbn [chart_data plotTheFirstChart].
  split; [apply sublist_filter|].
  intros r Hr Hnot.
  destruct (col r gdp_per_capita) as [u|] eqn:Eu; [|by left].
  destruct (col r life_expectancy) as [v|] eqn:Ev; [|by right].
  destruct Hnot. apply list_elem_of_filter. rewrite Eu, Ev. by repeat split.
Qed.
